(* Verification development for ContamPythonParallel/run_simulations.py.

   The script runs an external simulation executable (CONTAM_EXE) over the
   fixed list SIMULATION_FILES with a ProcessPoolExecutor of 3 workers.
   The model below is a shallow embedding:
   - Python strings are Rocq [string]s; paths follow posixpath;
   - the file system, the clock and the child processes are read through a
     [World] record (an oracle that the script cannot change);
   - the effects of one call of [run_contam] are recorded in a trace of
     [event]s, threaded through a small state-and-exception monad [M];
   - the process pool is a step relation on a pool state
     (dispatch of the next submitted job, completion of any running job). *)

From Stdlib Require Import String Ascii List ZArith NArith Lia Bool Permutation.
Import ListNotations.
Open Scope string_scope.

(* ------------------------------------------------------------------------- *)
(** * Python string helpers *)

Module PyStr.

(** A decimal digit character. *)
Definition digit_char (d : N) : ascii := ascii_of_N (48 + d).

(** Decimal digits of [n], prepended to [acc]; [fuel] bounds the number
    of digits (the bit size of [n] is enough). *)
Fixpoint digits_go (fuel : nat) (n : N) (acc : string) : string :=
  match fuel with
  | O => acc
  | S fuel' =>
      let acc' := String (digit_char (N.modulo n 10)) acc in
      if N.ltb n 10 then acc' else digits_go fuel' (N.div n 10) acc'
  end.

Definition str_N (n : N) : string := digits_go (S (N.size_nat n)) n "".

(** [str(i)] for a Python int. *)
Definition str_int (z : Z) : string :=
  if Z.ltb z 0 then "-" ++ str_N (Z.abs_N z) else str_N (Z.to_N z).

(** [f"{x:.2f}"] for a duration [x] given in hundredths of a second
    (the float [time.time() - start_time], as rounded by the format). *)
Definition fmt_2f (centis : Z) : string :=
  let a := Z.abs_N centis in
  let frac := N.modulo a 100 in
  (if Z.ltb centis 0 then "-" else "")
    ++ str_N (N.div a 100) ++ "."
    ++ String (digit_char (N.div frac 10)) (String (digit_char (N.modulo frac 10)) "").

(** ["\n"] *)
Definition nl : string := String (ascii_of_nat 10) EmptyString.

(** [sep.join(parts)] *)
Definition join (sep : string) (parts : list string) : string :=
  String.concat sep parts.

(** [s.endswith(suffix)] for a one-character suffix. *)
Fixpoint ends_with_char (c : ascii) (s : string) : bool :=
  match s with
  | EmptyString => false
  | String c' EmptyString => if ascii_dec c c' then true else false
  | String _ s' => ends_with_char c s'
  end.

Definition starts_with_char (c : ascii) (s : string) : bool :=
  match s with
  | EmptyString => false
  | String c' _ => if ascii_dec c c' then true else false
  end.

(** [s.replace(old, new)]: every non-overlapping occurrence of [old], from
    left to right, is replaced by [new].  [skip] counts the characters of a
    replaced occurrence still to be passed over.  An empty [old] inserts
    [new] before every character and at the end, as Python does. *)
Fixpoint replace_go (old new : string) (skip : nat) (s : string) : string :=
  match s with
  | EmptyString => EmptyString
  | String c s' =>
      match skip with
      | S k => replace_go old new k s'
      | O =>
          if prefix old s
          then new ++ replace_go old new (pred (String.length old)) s'
          else String c (replace_go old new O s')
      end
  end.

Fixpoint intersperse_all (new s : string) : string :=
  match s with
  | EmptyString => new
  | String c s' => new ++ String c (intersperse_all new s')
  end.

Definition replace (s old new : string) : string :=
  match old with
  | EmptyString => intersperse_all new s
  | _ => replace_go old new O s
  end.

End PyStr.

(* ------------------------------------------------------------------------- *)
(** * posixpath *)

Module OsPath.

(** [os.path.basename(p)]: the part after the last ['/']. *)
Fixpoint basename_go (p acc : string) : string :=
  match p with
  | EmptyString => acc
  | String c p' =>
      if ascii_dec c "/" then basename_go p' "" else basename_go p' (acc ++ String c "")
  end.

Definition basename (p : string) : string := basename_go p "".

(** [os.path.join(a, b)] with two components. *)
Definition join (a b : string) : string :=
  if PyStr.starts_with_char "/" b then b
  else if (String.eqb a "" || PyStr.ends_with_char "/" a)%bool then a ++ b
  else a ++ "/" ++ b.

End OsPath.

(* ------------------------------------------------------------------------- *)
(** * The outside world, effects and the monad *)

Module Script.

(** A Python exception: its class name and [str(e)]. *)
Record py_exc := PyExc { exc_class : string; exc_msg : string }.

(** [subprocess.CompletedProcess] with [capture_output=True, text=True]. *)
Record completed_process := CompletedProcess {
  cp_args : list string;
  returncode : Z;
  stdout : string;
  stderr : string }.

(** What the script reads from its environment.  [launch] is the outcome of
    starting the child for a command line whose program file exists and is
    executable (a fault of its own, or the child's result);
    [duration] is the elapsed wall time of that run in hundredths of a
    second; [write_fault] is [Some e] when [open(p, "w")] or the write
    raises [e]; [makedirs_fault] likewise for [os.makedirs]. *)
Record World := {
  fs_exists : string -> bool;
  fs_executable : string -> bool;
  sys_path0 : string;
  launch : list string -> py_exc + completed_process;
  duration : list string -> Z;
  write_fault : string -> option py_exc;
  makedirs_fault : string -> option py_exc }.

Inductive level := DEBUG | INFO | ERROR.

(** Observable effects of the script. *)
Inductive event :=
| Log (lvl : level) (msg : string)
| Popen (cmd : list string)
| WriteFile (path contents : string)
| MakeDirs (path : string).

(** Computations that append to the trace and may raise. *)
Definition M (A : Type) := list event -> (py_exc + A) * list event.

Definition ret {A} (a : A) : M A := fun tr => (inr a, tr).
Definition raise {A} (e : py_exc) : M A := fun tr => (inl e, tr).
Definition bind {A B} (m : M A) (k : A -> M B) : M B :=
  fun tr => match m tr with
            | (inl e, tr') => (inl e, tr')
            | (inr a, tr') => k a tr'
            end.
Definition emit (e : event) : M unit := fun tr => (inr tt, (tr ++ [e])%list).

(** [try: body except Exception as e: handler(e)] *)
Definition try_except {A} (body : M A) (handler : py_exc -> M A) : M A :=
  fun tr => match body tr with
            | (inl e, tr') => handler e tr'
            | (inr a, tr') => (inr a, tr')
            end.

Notation "x <- m ;; k" := (bind m (fun x => k)) (at level 61, m at next level, right associativity).
Notation "m ;; k" := (bind m (fun _ => k)) (at level 61, right associativity).

Definition logging (lvl : level) (msg : string) : M unit := emit (Log lvl msg).

Section Prims.
Variable w : World.

Definition os_path_exists (p : string) : M bool := ret (fs_exists w p).

(** [subprocess.run(command, capture_output=True, text=True, cwd=...)]:
    the executable is looked up first (FileNotFoundError, PermissionError),
    then the child is started and waited for. *)
Definition subprocess_outcome (cmd : list string) : py_exc + completed_process :=
  match cmd with
  | [] => inl (PyExc "IndexError" "list index out of range")
  | prog :: _ =>
      if negb (fs_exists w prog) then
        inl (PyExc "FileNotFoundError" ("[Errno 2] No such file or directory: '" ++ prog ++ "'"))
      else if negb (fs_executable w prog) then
        inl (PyExc "PermissionError" ("[Errno 13] Permission denied: '" ++ prog ++ "'"))
      else launch w cmd
  end.

Definition subprocess_run (cmd : list string) : M completed_process :=
  emit (Popen cmd) ;;
  match subprocess_outcome cmd with
  | inl e => raise e
  | inr r => ret r
  end.

(** [with open(path, "w", encoding="utf-8") as f: f.write(contents)] *)
Definition write_file (path contents : string) : M unit :=
  match write_fault w path with
  | Some e => raise e
  | None => emit (WriteFile path contents)
  end.

Definition os_makedirs (path : string) : M unit :=
  match makedirs_fault w path with
  | Some e => raise e
  | None => emit (MakeDirs path)
  end.

(** [CONTAM_EXE = os.path.join(sys.path[0], 'contamx3.exe')] *)
Definition CONTAM_EXE : string := OsPath.join (sys_path0 w) "contamx3.exe".

End Prims.

Definition SIMULATION_FILES : list string :=
  [ OsPath.join "simulations" "sim1.prj";
    OsPath.join "simulations" "sim2.prj";
    OsPath.join "simulations" "sim3.prj" ].

(** The per-job artifact text [log_details]. *)
Definition log_details (command : list string) (elapsed : Z) (result : completed_process) : string :=
  "Command: " ++ PyStr.join " " command ++ "
" ++ "Elapsed Time: " ++ PyStr.fmt_2f elapsed ++ " seconds
" ++ "Return Code: " ++ PyStr.str_int (returncode result) ++ "
" ++ "STDOUT:
" ++ stdout result ++ "
" ++ "STDERR:
" ++ stderr result ++ "
".

Definition output_log_file (simulation_name : string) : string :=
  OsPath.join "output" (PyStr.replace simulation_name ".prj" ".log").

(** [run_contam(sim_file)] *)
Definition run_contam (w : World) (sim_file : string) : M string :=
  let simulation_name := OsPath.basename sim_file in
  logging INFO ("Starting simulation for " ++ simulation_name) ;;
  present <- os_path_exists w sim_file ;;
  if negb present then
    let error_message := "Simulation file not found: " ++ sim_file in
    logging ERROR error_message ;;
    ret (simulation_name ++ ": File not found")
  else
    let command := [CONTAM_EXE w; sim_file] in
    logging DEBUG ("Executing command: " ++ PyStr.join " " command) ;;
    res <- try_except
             (r <- subprocess_run w command ;; ret (Some r))
             (fun e => logging ERROR ("Exception occurred while running simulation "
                                       ++ simulation_name ++ ": " ++ exc_msg e) ;;
                       ret None) ;;
    match res with
    | None => ret (simulation_name ++ ": Exception occurred")
    | Some result =>
        let elapsed_time := duration w command in
        logging INFO ("Finished simulation for " ++ simulation_name ++ " in "
                       ++ PyStr.fmt_2f elapsed_time ++ " seconds") ;;
        let details := log_details command elapsed_time result in
        let out := output_log_file simulation_name in
        try_except
          (write_file w out details ;;
           logging DEBUG ("Log details for " ++ simulation_name ++ " written to " ++ out))
          (fun e => logging ERROR ("Error writing log file for " ++ simulation_name
                                    ++ ": " ++ exc_msg e)) ;;
        ret (simulation_name ++ ": Completed in " ++ PyStr.fmt_2f elapsed_time
             ++ " seconds, Return Code: " ++ PyStr.str_int (returncode result))
    end.

(** The same world with another behaviour of the artifact writes. *)
Definition with_write_fault (w : World) (g : string -> option py_exc) : World :=
  {| fs_exists := fs_exists w; fs_executable := fs_executable w; sys_path0 := sys_path0 w;
     launch := launch w; duration := duration w; write_fault := g;
     makedirs_fault := makedirs_fault w |}.

(** The value a worker hands back for one job (its future's outcome). *)
Definition job_outcome (w : World) (sim_file : string) : py_exc + string :=
  fst (run_contam w sim_file []).

End Script.

(* ------------------------------------------------------------------------- *)
(** * ProcessPoolExecutor.map *)

Module Pool.

Section Pool.
Context {B : Type}.
(** The function mapped, the jobs submitted (in order) and [max_workers]. *)
Variable f : string -> B.
Variable jobs : list string.
Variable max_workers : nat.

(** [next_job]: the number of submitted jobs already handed to a worker
    (they are handed out in submission order); [running]: indices of the
    jobs being run; [finished]: the completed futures, in completion order. *)
Record pool_state := PoolState {
  next_job : nat;
  running : list nat;
  finished : list (nat * B) }.

Definition pool_init : pool_state := PoolState 0 [] [].

Inductive pool_step : pool_state -> pool_state -> Prop :=
| step_dispatch n r d :
    n < length jobs -> length r < max_workers ->
    pool_step (PoolState n r d) (PoolState (S n) (r ++ [n]) d)
| step_complete n r1 i r2 d j :
    nth_error jobs i = Some j ->
    pool_step (PoolState n (r1 ++ i :: r2) d) (PoolState n (r1 ++ r2) (d ++ [(i, f j)])).

Inductive pool_star : pool_state -> pool_state -> Prop :=
| star_refl s : pool_star s s
| star_step s1 s2 s3 : pool_step s1 s2 -> pool_star s2 s3 -> pool_star s1 s3.

(** The executor has shut down: every job handed out and none running. *)
Definition pool_final (s : pool_state) : Prop :=
  next_job s = length jobs /\ running s = [].

Fixpoint lookup (i : nat) (d : list (nat * B)) : option B :=
  match d with
  | [] => None
  | (k, b) :: d' => if Nat.eqb i k then Some b else lookup i d'
  end.

Fixpoint all_some (l : list (option B)) : option (list B) :=
  match l with
  | [] => Some []
  | None :: _ => None
  | Some b :: l' => match all_some l' with Some bs => Some (b :: bs) | None => None end
  end.

(** [executor.map] yields [fs[i].result()] for [i] in submission order. *)
Definition collect (s : pool_state) : option (list B) :=
  all_some (map (fun i => lookup i (finished s)) (seq 0 (length jobs))).

(** Work left: each job not yet handed out counts twice (dispatch and
    completion), each running job once. *)
Definition remaining (s : pool_state) : nat :=
  2 * (length jobs - next_job s) + length (running s).

End Pool.

End Pool.

(* ------------------------------------------------------------------------- *)
(** * The whole script *)

Module Main.
Import Script Pool.

(** [list(...)] over the yielded results: the first exception re-raises. *)
Fixpoint first_exc (l : list (py_exc + string)) : py_exc + list string :=
  match l with
  | [] => inr []
  | inl e :: _ => inl e
  | inr s :: l' => match first_exc l' with inl e => inl e | inr ss => inr (s :: ss) end
  end.

(** Running the script: the module-level executable check, then [main()].
    [script_runs w code results attempted]: the interpreter exits with
    [code]; [results] is the summary list of [main()]; [attempted] lists the
    indices of the jobs that ran, in completion order. *)
Inductive script_runs (w : World) : Z -> list string -> list nat -> Prop :=
| run_no_exe :
    fs_exists w (CONTAM_EXE w) = false ->
    script_runs w 1 [] []
| run_makedirs_fault e :
    fs_exists w (CONTAM_EXE w) = true ->
    fs_exists w "output" = false -> makedirs_fault w "output" = Some e ->
    script_runs w 1 [] []
| run_pool s outs results :
    fs_exists w (CONTAM_EXE w) = true ->
    (fs_exists w "output" = true \/ makedirs_fault w "output" = None) ->
    pool_star (job_outcome w) SIMULATION_FILES 3 (pool_init) s ->
    pool_final SIMULATION_FILES s ->
    collect SIMULATION_FILES s = Some outs ->
    first_exc outs = inr results ->
    script_runs w 0 results (map fst (finished s))
| run_pool_raise s outs e :
    fs_exists w (CONTAM_EXE w) = true ->
    (fs_exists w "output" = true \/ makedirs_fault w "output" = None) ->
    pool_star (job_outcome w) SIMULATION_FILES 3 (pool_init) s ->
    pool_final SIMULATION_FILES s ->
    collect SIMULATION_FILES s = Some outs ->
    first_exc outs = inl e ->
    script_runs w 1 [] (map fst (finished s)).

End Main.

(* ------------------------------------------------------------------------- *)
(** * main() *)

Module MainProc.
Import Script.

(** [for res in results: logging.info(res)] *)
Fixpoint log_all (lvl : level) (msgs : list string) : M unit :=
  match msgs with
  | [] => ret tt
  | m :: ms => logging lvl m ;; log_all lvl ms
  end.

(** [main()]; [outs] are the values held by the executor's futures, in
    submission order ([Pool.collect] of a finished pool); [list(...)]
    re-raises the first exception among them. *)
Definition main (w : World) (outs : list (py_exc + string)) : M unit :=
  present <- os_path_exists w "output" ;;
  (if negb present
   then os_makedirs w "output" ;; logging DEBUG "Created 'output' directory."
   else ret tt) ;;
  logging INFO "Starting all simulations in parallel." ;;
  results <- (match Main.first_exc outs with inl e => raise e | inr rs => ret rs end) ;;
  logging INFO "All simulations completed. Summary:" ;;
  log_all INFO results.

End MainProc.

(* ------------------------------------------------------------------------- *)
(** * Views on a trace *)

Module TraceView.
Import Script.

Definition is_popen (e : event) : bool := match e with Popen _ => true | _ => false end.
Definition is_write (e : event) : bool := match e with WriteFile _ _ => true | _ => false end.
Definition is_error (e : event) : bool := match e with Log ERROR _ => true | _ => false end.

Definition count_events (p : event -> bool) (l : list event) : nat := length (filter p l).

End TraceView.

(* ------------------------------------------------------------------------- *)
(** * Statements as the specification words them, and sample environments *)

Module SpecSide.
Import Script.

(** Python's [sub in s]. *)
Definition py_in (sub s : string) : bool :=
  match String.index 0 sub s with Some _ => true | None => false end.

Fixpoint all_dots (s : string) : bool :=
  match s with
  | EmptyString => true
  | String c s' => if ascii_dec c "." then all_dots s' else false
  end.

Fixpoint last_dot_go (s : string) (i : nat) (acc : option nat) : option nat :=
  match s with
  | EmptyString => acc
  | String c s' => last_dot_go s' (S i) (if ascii_dec c "." then Some i else acc)
  end.

(** The root of [os.path.splitext(name)] for a basename: the name without
    its extension (leading dots do not start an extension). *)
Definition splitext_root (name : string) : string :=
  match last_dot_go name 0 None with
  | None => name
  | Some p => if all_dots (substring 0 p name) then name else substring 0 p name
  end.

(** The artifact path as the specification describes it: the output
    directory joined with the job name, its extension replaced by ".log". *)
Definition spec_artifact_path (simulation_name : string) : string :=
  OsPath.join "output" (splitext_root simulation_name ++ ".log").

(** The startup check as the specification words it: a missing or
    non-executable program makes the run fail with no job attempted. *)
Definition exe_check_claim : Prop :=
  forall w, (fs_exists w (CONTAM_EXE w) = false \/ fs_executable w (CONTAM_EXE w) = false) ->
  forall code results attempted,
    Main.script_runs w code results attempted -> code = 1%Z /\ attempted = [].

(** The artifact path as the specification words it, for every job. *)
Definition artifact_path_claim : Prop :=
  forall w sim_file p c,
    In (WriteFile p c) (snd (run_contam w sim_file [])) ->
    p = spec_artifact_path (OsPath.basename sim_file).

(** Sample environments. *)
Definition sample_world (present : string -> bool) (exe_ok : bool)
    (outcome : list string -> py_exc + completed_process)
    (wf : string -> option py_exc) : World :=
  {| fs_exists := present; fs_executable := fun _ => exe_ok; sys_path0 := "/opt/contam";
     launch := outcome; duration := fun _ => 1207%Z; write_fault := wf;
     makedirs_fault := fun _ => None |}.

Definition child (rc : Z) (out : string) : list string -> py_exc + completed_process :=
  fun cmd => inr (CompletedProcess cmd rc out "").

Definition w_all_ok : World :=
  sample_world (fun _ => true) true (child 0 "OK") (fun _ => None).

Definition w_sim3_missing : World :=
  sample_world (fun p => negb (String.eqb p "simulations/sim3.prj")) true (child 2 "") (fun _ => None).

Definition w_launch_fault : World :=
  sample_world (fun _ => true) true (fun _ => inl (PyExc "OSError" "[Errno 8] Exec format error"))
    (fun _ => None).

Definition w_not_executable : World :=
  sample_world (fun _ => true) false (child 0 "OK") (fun _ => None).

Definition w_no_exe : World :=
  sample_world (fun p => negb (String.eqb p "/opt/contam/contamx3.exe")) true (child 0 "OK")
    (fun _ => None).

Definition w_disk_full : World :=
  sample_world (fun _ => true) true (child 0 "OK")
    (fun _ => Some (PyExc "OSError" "[Errno 28] No space left on device")).

Definition w_output_blocked : World :=
  {| fs_exists := fun p => negb (String.eqb p "output"); fs_executable := fun _ => true;
     sys_path0 := "/opt/contam"; launch := child 0 "OK"; duration := fun _ => 1207%Z;
     write_fault := fun _ => None;
     makedirs_fault := fun _ => Some (PyExc "FileExistsError" "[Errno 17] File exists: 'output'") |}.

End SpecSide.

(* ========================================================================= *)
(** * Facts about the pool *)

Module PoolFacts.
Import Pool.

Section PoolFacts.
Context {B : Type}.
Variable f : string -> B.
Variable jobs : list string.
Variable max_workers : nat.

Local Abbreviation step := (pool_step f jobs max_workers).
Local Abbreviation star := (pool_star f jobs max_workers).

(** Every index below [next_job] is running or finished, exactly once;
    every finished entry carries [f] of its job. *)
Definition pool_inv (s : pool_state) : Prop :=
  next_job s <= length jobs /\
  length (running s) <= max_workers /\
  NoDup (running s ++ map fst (finished s)) /\
  (forall i, In i (running s ++ map fst (finished s)) <-> i < next_job s) /\
  (forall i b, In (i, b) (finished s) -> exists j, nth_error jobs i = Some j /\ b = f j).

Lemma star_snoc s1 s2 s3 : star s1 s2 -> step s2 s3 -> star s1 s3.
Proof.
  induction 1; intros Hs.
  - econstructor; [exact Hs | constructor].
  - econstructor; [eassumption | auto].
Qed.

Lemma inv_init : pool_inv pool_init.
Proof.
  unfold pool_inv; simpl. repeat split.
  all: try lia.
  all: try constructor.
  all: intros; simpl in *; try tauto; lia.
Qed.

Lemma perm_complete (r1 r2 : list nat) (i : nat) (d : list nat) :
  Permutation ((r1 ++ i :: r2) ++ d) ((r1 ++ r2) ++ (d ++ [i])).
Proof.
  rewrite <- !app_assoc. apply Permutation_app_head. simpl.
  rewrite app_assoc. apply Permutation_cons_append.
Qed.

Lemma inv_step s s' : pool_inv s -> step s s' -> pool_inv s'.
Proof.
  intros (Hn & Hr & Hnd & Hin & Hf) Hs. inversion Hs; subst; simpl in *.
  - repeat split; cbn [next_job running finished].
    + lia.
    + rewrite length_app; simpl; lia.
    + rewrite <- app_assoc; simpl.
      apply Permutation_NoDup with (l := n :: r ++ map fst d).
      * apply Permutation_middle.
      * constructor; [|exact Hnd]. intros Hc. apply Hin in Hc. lia.
    + intros Hc. rewrite <- app_assoc in Hc; simpl in Hc.
      apply in_app_or in Hc. destruct Hc as [Hc | [Hc | Hc]].
      * assert (i < n) by (apply Hin; apply in_or_app; auto). lia.
      * lia.
      * assert (i < n) by (apply Hin; apply in_or_app; auto). lia.
    + intros Hlt. rewrite <- app_assoc; simpl.
      destruct (Nat.eq_dec i n) as [-> | Hne].
      * apply in_or_app; right; left; reflexivity.
      * assert (Hi : In i (r ++ map fst d)) by (apply Hin; lia).
        apply in_app_or in Hi; apply in_or_app. destruct Hi; [left | right; right]; auto.
    + exact Hf.
  - rewrite length_app in *; simpl in *. repeat split; cbn [next_job running finished].
    + lia.
    + rewrite length_app in *; simpl in *; lia.
    + rewrite map_app; simpl.
      eapply Permutation_NoDup; [apply perm_complete | exact Hnd].
    + intros Hc. apply Hin. rewrite map_app in Hc; simpl in Hc.
      eapply Permutation_in; [symmetry; apply perm_complete | exact Hc].
    + intros Hlt. apply Hin in Hlt. rewrite map_app; simpl.
      eapply Permutation_in; [apply perm_complete | exact Hlt].
    + intros k b Hk. apply in_app_or in Hk. destruct Hk as [Hk | [Hk | []]].
      * eauto.
      * inversion Hk; subst. eauto.
Qed.

Lemma inv_star s : star pool_init s -> pool_inv s.
Proof.
  intros H. remember pool_init as s0 eqn:E.
  assert (pool_inv s0) by (subst; apply inv_init). clear E.
  induction H; eauto using inv_step.
Qed.

(** Each step does one unit of the remaining work. *)
Lemma step_remaining s s' : pool_inv s -> step s s' -> remaining jobs s = S (remaining jobs s').
Proof.
  intros (Hn & _) Hs. inversion Hs; subst; unfold remaining; simpl in *;
    rewrite ?length_app; simpl; lia.
Qed.

Lemma remaining_init : remaining jobs (@pool_init B) = 2 * length jobs.
Proof. unfold remaining; simpl; lia. Qed.

(** With at least one worker, the pool never gets stuck before shutdown. *)
Lemma pool_no_stuck s :
  1 <= max_workers -> pool_inv s -> pool_final jobs s \/ exists s', step s s'.
Proof.
  intros HP (Hn & Hr & Hnd & Hin & Hf). destruct s as [n r d]; simpl in *.
  destruct r as [| i r].
  - destruct (Nat.lt_ge_cases n (length jobs)) as [Hlt | Hge].
    + right. eexists. apply step_dispatch; simpl; lia.
    + left. split; simpl; [lia | reflexivity].
  - right.
    assert (Hi : i < n) by (apply Hin; left; reflexivity).
    destruct (nth_error jobs i) as [j |] eqn:Hj.
    + eexists. apply (step_complete f jobs max_workers n [] i r d j Hj).
    + apply nth_error_None in Hj. lia.
Qed.

Lemma pool_completes_from k s :
  1 <= max_workers -> star pool_init s -> remaining jobs s <= k ->
  exists s', star pool_init s' /\ pool_final jobs s'.
Proof.
  intros HP. revert s. induction k as [| k IH]; intros s Hs Hk.
  - destruct (pool_no_stuck s HP (inv_star s Hs)) as [Hfin | [s' Hst]].
    + eauto.
    + pose proof (step_remaining s s' (inv_star s Hs) Hst). lia.
  - destruct (pool_no_stuck s HP (inv_star s Hs)) as [Hfin | [s' Hst]].
    + eauto.
    + pose proof (step_remaining s s' (inv_star s Hs) Hst).
      apply (IH s'); [eapply star_snoc; eauto | lia].
Qed.

Lemma pool_completes :
  1 <= max_workers -> exists s, star pool_init s /\ pool_final jobs s.
Proof.
  intros HP. apply (pool_completes_from (remaining jobs (@pool_init B)) pool_init HP);
    [constructor | lia].
Qed.

Lemma lookup_in (i : nat) (b : B) (d : list (nat * B)) : NoDup (map fst d) -> In (i, b) d -> lookup i d = Some b.
Proof.
  induction d as [| [k c] d IH]; simpl; intros Hnd Hin; [contradiction |].
  inversion Hnd; subst. destruct Hin as [He | Hin].
  - inversion He; subst. rewrite Nat.eqb_refl. reflexivity.
  - destruct (Nat.eqb_spec i k) as [-> | Hne].
    + exfalso. apply H1. apply in_map_iff. exists (k, b). auto.
    + auto.
Qed.

Lemma map_seq_nth (g : nat -> option B) (l : list string) :
  (forall i j, nth_error l i = Some j -> g i = Some (f j)) ->
  map g (seq 0 (length l)) = map (fun j => Some (f j)) l.
Proof.
  revert g. induction l as [| j l IH]; intros g Hg; simpl; [reflexivity |].
  rewrite (Hg 0 j eq_refl). f_equal.
  rewrite <- seq_shift, map_map. apply IH. intros i j' Hj'. apply (Hg (S i)). exact Hj'.
Qed.

Lemma all_some_map (l : list string) :
  all_some (map (fun j => Some (f j)) l) = Some (map f l).
Proof. induction l as [| j l IH]; simpl; [reflexivity | rewrite IH; reflexivity]. Qed.

(** At shutdown: each job finished exactly once, and the results come back
    in submission order, whatever the completion order. *)
Lemma pool_final_correct s :
  star pool_init s -> pool_final jobs s ->
  collect jobs s = Some (map f jobs) /\
  Permutation (map fst (finished s)) (seq 0 (length jobs)).
Proof.
  intros Hs [Hn Hr]. destruct (inv_star s Hs) as (_ & _ & Hnd & Hin & Hf).
  rewrite Hr in Hnd, Hin; simpl in Hnd, Hin. rewrite Hn in Hin. split.
  - unfold collect. rewrite (map_seq_nth _ jobs).
    + apply all_some_map.
    + intros i j Hj.
      assert (Hi : i < length jobs) by (apply nth_error_Some; congruence).
      apply Hin in Hi. apply in_map_iff in Hi. destruct Hi as [[k b] [Hk Hkb]].
      simpl in Hk; subst k. destruct (Hf i b Hkb) as (j' & Hj' & ->).
      rewrite Hj in Hj'. inversion Hj'; subst.
      apply lookup_in; assumption.
  - apply NoDup_Permutation; [exact Hnd | apply seq_NoDup |].
    intros i. rewrite Hin, in_seq. lia.
Qed.

End PoolFacts.
End PoolFacts.

(* ========================================================================= *)
(** * Facts about run_contam *)

Module RunContamFacts.
Import Script.

Section RunContam.
Variable w : World.
Variable sim_file : string.

Let name := OsPath.basename sim_file.
Let command := [CONTAM_EXE w; sim_file].
Let elapsed := duration w command.
Let out := output_log_file name.

(** The events of writing the artifact. *)
Definition artifact_events (r : completed_process) : list event :=
  match write_fault w out with
  | Some e => [Log ERROR ("Error writing log file for " ++ name ++ ": " ++ exc_msg e)]
  | None => [WriteFile out (log_details command elapsed r);
             Log DEBUG ("Log details for " ++ name ++ " written to " ++ out)]
  end.

(** [run_contam] in closed form: its return value and the events it adds. *)
Lemma run_contam_eq tr :
  run_contam w sim_file tr =
  if negb (fs_exists w sim_file) then
    (inr (name ++ ": File not found"),
     app tr [Log INFO ("Starting simulation for " ++ name);
             Log ERROR ("Simulation file not found: " ++ sim_file)])
  else
    match subprocess_outcome w command with
    | inl e =>
        (inr (name ++ ": Exception occurred"),
         app tr [Log INFO ("Starting simulation for " ++ name);
                Log DEBUG ("Executing command: " ++ PyStr.join " " command);
                Popen command;
                Log ERROR ("Exception occurred while running simulation "
                           ++ name ++ ": " ++ exc_msg e)])
    | inr r =>
        (inr (name ++ ": Completed in " ++ PyStr.fmt_2f elapsed
              ++ " seconds, Return Code: " ++ PyStr.str_int (returncode r)),
         app (app tr [Log INFO ("Starting simulation for " ++ name);
                Log DEBUG ("Executing command: " ++ PyStr.join " " command);
                Popen command;
                Log INFO ("Finished simulation for " ++ name ++ " in "
                          ++ PyStr.fmt_2f elapsed ++ " seconds")])
            (artifact_events r))
    end.
Proof.
  unfold run_contam, artifact_events, bind, ret, logging, emit, os_path_exists, try_except,
    subprocess_run, write_file, raise.
  subst name command elapsed out.
  destruct (fs_exists w sim_file);
    [ destruct (subprocess_outcome w [CONTAM_EXE w; sim_file]) as [e | r];
      [| destruct (write_fault w (output_log_file (OsPath.basename sim_file))) as [e |]] |];
    simpl; rewrite <- ?app_assoc; reflexivity.
Qed.

End RunContam.

End RunContamFacts.

Module ScriptFacts.
Import Script Pool Main RunContamFacts.

Lemma run_contam_returns w sim_file tr :
  exists v tr', run_contam w sim_file tr = (inr v, tr').
Proof.
  rewrite run_contam_eq.
  destruct (fs_exists w sim_file);
    [destruct (subprocess_outcome w [CONTAM_EXE w; sim_file]) |];
    simpl; do 2 eexists; reflexivity.
Qed.

Lemma job_outcome_returns w sim_file : exists v, job_outcome w sim_file = inr v.
Proof.
  unfold job_outcome. destruct (run_contam_returns w sim_file []) as (v & tr' & ->).
  exists v; reflexivity.
Qed.

Lemma first_exc_job_outcomes w jobs :
  exists results, first_exc (map (job_outcome w) jobs) = inr results.
Proof.
  induction jobs as [| j jobs IH]; simpl; [eauto |].
  destruct (job_outcome_returns w j) as [v ->]. destruct IH as [rs ->]. eauto.
Qed.

Lemma subprocess_outcome_write_fault w g cmd :
  subprocess_outcome (with_write_fault w g) cmd = subprocess_outcome w cmd.
Proof. reflexivity. Qed.


Lemma str_app_assoc (a b c : string) : (a ++ b) ++ c = a ++ (b ++ c).
Proof. induction a as [| x a IH]; simpl; [reflexivity | rewrite IH; reflexivity]. Qed.

Lemma prefix_app_self (sub b : string) : prefix sub (sub ++ b) = true.
Proof.
  induction sub as [| x sub IH]; simpl; [destruct b; reflexivity |].
  destruct (ascii_dec x x) as [_ | Hne]; [exact IH | contradiction].
Qed.

Lemma index_prefix (s1 s2 : string) : prefix s1 s2 = true -> String.index 0 s1 s2 = Some 0.
Proof. destruct s2, s1; simpl; intros H; try rewrite H; congruence. Qed.

Lemma index_app_found (a sub b : string) : exists n, String.index 0 sub (a ++ sub ++ b) = Some n.
Proof.
  induction a as [| x a [n IH]]; simpl.
  - exists 0. apply index_prefix, prefix_app_self.
  - rewrite IH. match goal with |- exists _, (if ?c then _ else _) = _ => destruct c end; eauto.
Qed.

Lemma py_in_intro (a sub b s : string) : s = a ++ sub ++ b -> SpecSide.py_in sub s = true.
Proof.
  intros ->. unfold SpecSide.py_in. destruct (index_app_found a sub b) as [n ->]. reflexivity.
Qed.

(** ".prj" cannot start inside [t] and end in a following ".prj". *)
Lemma prefix_app_long (s1 t x : string) :
  String.length s1 <= String.length t -> prefix s1 (t ++ x) = prefix s1 t.
Proof.
  revert t. induction s1 as [| a s1 IH]; intros t Hlen.
  - destruct t, x; reflexivity.
  - destruct t as [| b t]; simpl in Hlen; [lia |]. simpl.
    destruct (ascii_dec a b); [apply IH; lia | reflexivity].
Qed.

Lemma prefix_prj_boundary (c : ascii) (t : string) :
  prefix ".prj" (String c t) = false -> prefix ".prj" (String c (t ++ ".prj")) = false.
Proof.
  change (String c (t ++ ".prj")) with (String c t ++ ".prj").
  destruct t as [| c2 [| c3 [| c4 t]]]; intros H;
    [| | | rewrite prefix_app_long; [exact H | simpl; lia]];
    cbn [prefix String.append]; repeat match goal with
                  | |- context [ascii_dec ?a ?b] => destruct (ascii_dec a b)
                  end; try reflexivity;
    match goal with H : ?a = ?b |- _ => discriminate H end.
Qed.

Lemma replace_go_prj (stem : string) :
  String.index 0 ".prj" stem = None ->
  PyStr.replace_go ".prj" ".log" 0 (stem ++ ".prj") = stem ++ ".log".
Proof.
  induction stem as [| c stem IH]; [reflexivity |].
  intros Hidx. cbn [String.index] in Hidx.
  destruct (prefix ".prj" (String c stem)) eqn:Hp; [discriminate |].
  destruct (String.index 0 ".prj" stem) eqn:Hs; [discriminate |].
  change (String c stem ++ ".prj") with (String c (stem ++ ".prj")).
  cbn [PyStr.replace_go].
  rewrite (prefix_prj_boundary c stem Hp). rewrite (IH eq_refl). reflexivity.
Qed.

(** The interpreter's exit when the executable is present and [main()]
    gets past the output directory: the pool completes, and the summary
    list holds the job values in job-list order. *)
Lemma first_exc_all_values w (g : string -> string) (l : list string) :
  (forall f, In f l -> job_outcome w f = inr (g f)) ->
  first_exc (map (job_outcome w) l) = inr (map g l).
Proof.
  induction l as [| f l IH]; intros H; simpl; [reflexivity |].
  rewrite (H f (or_introl eq_refl)), IH; [reflexivity |].
  intros f' Hf'. apply H. right. exact Hf'.
Qed.

Lemma script_pool_runs w :
  fs_exists w (CONTAM_EXE w) = true ->
  (fs_exists w "output" = true \/ makedirs_fault w "output" = None) ->
  exists results attempted, script_runs w 0 results attempted.
Proof.
  intros Hexe Hout.
  destruct (PoolFacts.pool_completes (job_outcome w) SIMULATION_FILES 3 ltac:(lia)) as (s & Hs & Hf).
  destruct (PoolFacts.pool_final_correct (job_outcome w) SIMULATION_FILES 3 s Hs Hf) as [Hc _].
  destruct (first_exc_job_outcomes w SIMULATION_FILES) as [results Hr].
  exists results, (map fst (finished s)). eapply run_pool; eauto.
Qed.

Lemma script_exit_zero w code results attempted :
  fs_exists w (CONTAM_EXE w) = true ->
  (fs_exists w "output" = true \/ makedirs_fault w "output" = None) ->
  script_runs w code results attempted ->
  code = 0%Z /\ first_exc (map (job_outcome w) SIMULATION_FILES) = inr results /\
  Permutation attempted (seq 0 3).
Proof.
  intros Hexe Hout Hrun. inversion Hrun as [Hno | e Hy Hn Hm | s outs rs Hy Ho Hs Hf Hc Hr
                                          | s outs e Hy Ho Hs Hf Hc Hr]; subst.
  - congruence.
  - destruct Hout; congruence.
  - destruct (PoolFacts.pool_final_correct (job_outcome w) SIMULATION_FILES 3 s Hs Hf) as [Hc' Hp].
    rewrite Hc in Hc'. inversion Hc'; subst. auto.
  - destruct (PoolFacts.pool_final_correct (job_outcome w) SIMULATION_FILES 3 s Hs Hf) as [Hc' _].
    rewrite Hc in Hc'. inversion Hc'; subst.
    destruct (first_exc_job_outcomes w SIMULATION_FILES) as [rs Hrs]. congruence.
Qed.

Lemma script_no_exe w code results attempted :
  fs_exists w (CONTAM_EXE w) = false ->
  script_runs w code results attempted -> code = 1%Z /\ results = [] /\ attempted = [].
Proof.
  intros Hexe Hrun. inversion Hrun; subst; try congruence. auto.
Qed.

End ScriptFacts.

(* ========================================================================= *)
(** * The claims *)

Module Claims.
Import Script Pool PoolFacts Main RunContamFacts ScriptFacts SpecSide.

(** The reads other than [write_fault] see the same world. *)
Ltac same_world_reads :=
  repeat match goal with
  | |- context [fs_exists (with_write_fault ?w ?g)] =>
      change (fs_exists (with_write_fault w g)) with (fs_exists w)
  | |- context [CONTAM_EXE (with_write_fault ?w ?g)] =>
      change (CONTAM_EXE (with_write_fault w g)) with (CONTAM_EXE w)
  | |- context [duration (with_write_fault ?w ?g)] =>
      change (duration (with_write_fault w g)) with (duration w)
  | |- context [subprocess_outcome (with_write_fault ?w ?g)] =>
      rewrite subprocess_outcome_write_fault
  end.

(** C1: for any job list and any pool size P >= 1, the pool never gets
    stuck, every run ends after exactly 2N steps (a dispatch and a
    completion per job), and at shutdown every job has finished exactly
    once and [executor.map] yields the N results in job-list order,
    whatever the completion order was. *)
Theorem map_results_in_order (w : World) (jobs : list string) (P : nat) (HP : 1 <= P) :
  (forall s, pool_star (job_outcome w) jobs P pool_init s ->
     pool_final jobs s \/ exists s', pool_step (job_outcome w) jobs P s s') /\
  (forall s s', pool_star (job_outcome w) jobs P pool_init s ->
     pool_step (job_outcome w) jobs P s s' -> remaining jobs s = S (remaining jobs s')) /\
  remaining jobs (@pool_init (py_exc + string)) = 2 * length jobs /\
  (exists s, pool_star (job_outcome w) jobs P pool_init s /\ pool_final jobs s) /\
  (forall s, pool_star (job_outcome w) jobs P pool_init s -> pool_final jobs s ->
     collect jobs s = Some (map (job_outcome w) jobs) /\
     length (map (job_outcome w) jobs) = length jobs /\
     Permutation (map fst (finished s)) (seq 0 (length jobs))).
Proof.
  refine (conj _ (conj _ (conj _ (conj _ _)))).
  - intros s Hs. apply pool_no_stuck; [exact HP | apply inv_star; exact Hs].
  - intros s s' Hs Hst.
    apply (step_remaining (job_outcome w) jobs P); [apply inv_star; exact Hs | exact Hst].
  - apply remaining_init.
  - apply pool_completes; exact HP.
  - intros s Hs Hf.
    destruct (pool_final_correct (job_outcome w) jobs P s Hs Hf) as [Hc Hp].
    split; [exact Hc | split; [apply length_map | exact Hp]].
Qed.

Lemma map_results_in_order_witness :
  1 <= 3 /\
  exists s, pool_star (job_outcome w_all_ok) SIMULATION_FILES 3 pool_init s /\
            pool_final SIMULATION_FILES s.
Proof.
  split; [lia |].
  exact (proj1 (proj2 (proj2 (proj2
           (map_results_in_order w_all_ok SIMULATION_FILES 3 ltac:(lia)))))).
Defined.

(** C2: when the input file does not exist, [run_contam] returns
    "<name>: File not found" and only logs two lines: no [Popen] (no
    process launched) and no artifact write. *)
Theorem missing_input_no_launch (w : World) (sim_file : string) (tr : list event)
    (Hmissing : fs_exists w sim_file = false) :
  run_contam w sim_file tr =
  (inr (OsPath.basename sim_file ++ ": File not found"),
   app tr [Log INFO ("Starting simulation for " ++ OsPath.basename sim_file);
           Log ERROR ("Simulation file not found: " ++ sim_file)]).
Proof. rewrite run_contam_eq, Hmissing. reflexivity. Qed.

Lemma missing_input_no_launch_witness :
  fs_exists w_sim3_missing "simulations/sim3.prj" = false /\
  run_contam w_sim3_missing "simulations/sim3.prj" [] =
  (inr "sim3.prj: File not found",
   [Log INFO "Starting simulation for sim3.prj";
    Log ERROR "Simulation file not found: simulations/sim3.prj"]).
Proof.
  split; [reflexivity |].
  exact (missing_input_no_launch w_sim3_missing "simulations/sim3.prj" [] eq_refl).
Defined.

(** C3: a child that ran and exited with a non-zero code gives the normal
    "Completed" summary carrying exactly that code, not the exception
    summary. *)
Theorem nonzero_exit_is_completed (w : World) (sim_file : string) (tr : list event)
    (r : completed_process)
    (Hpresent : fs_exists w sim_file = true)
    (Hran : subprocess_outcome w [CONTAM_EXE w; sim_file] = inr r)
    (Hnonzero : returncode r <> 0%Z) :
  fst (run_contam w sim_file tr) =
  inr (OsPath.basename sim_file ++ ": Completed in "
       ++ PyStr.fmt_2f (duration w [CONTAM_EXE w; sim_file])
       ++ " seconds, Return Code: " ++ PyStr.str_int (returncode r)).
Proof. rewrite run_contam_eq, Hpresent, Hran. reflexivity. Qed.

Lemma nonzero_exit_is_completed_witness :
  fst (run_contam w_sim3_missing "simulations/sim1.prj" []) =
  inr "sim1.prj: Completed in 12.07 seconds, Return Code: 2".
Proof.
  rewrite (nonzero_exit_is_completed w_sim3_missing "simulations/sim1.prj" []
             (CompletedProcess ["/opt/contam/contamx3.exe"; "simulations/sim1.prj"] 2 "" "")
             eq_refl eq_refl ltac:(discriminate)).
  reflexivity.
Defined.

(** C4: when starting the process raises (as opposed to a non-zero exit),
    the exception is caught and logged, and [run_contam] returns
    "<name>: Exception occurred" as a normal value. *)
Theorem launch_fault_is_caught (w : World) (sim_file : string) (tr : list event) (e : py_exc)
    (Hpresent : fs_exists w sim_file = true)
    (Hfault : subprocess_outcome w [CONTAM_EXE w; sim_file] = inl e) :
  run_contam w sim_file tr =
  (inr (OsPath.basename sim_file ++ ": Exception occurred"),
   app tr [Log INFO ("Starting simulation for " ++ OsPath.basename sim_file);
           Log DEBUG ("Executing command: " ++ PyStr.join " " [CONTAM_EXE w; sim_file]);
           Popen [CONTAM_EXE w; sim_file];
           Log ERROR ("Exception occurred while running simulation "
                      ++ OsPath.basename sim_file ++ ": " ++ exc_msg e)]).
Proof. rewrite run_contam_eq, Hpresent, Hfault. reflexivity. Qed.

Lemma launch_fault_is_caught_witness :
  job_outcome w_launch_fault "simulations/sim2.prj" = inr "sim2.prj: Exception occurred".
Proof.
  unfold job_outcome.
  rewrite (launch_fault_is_caught w_launch_fault "simulations/sim2.prj" []
             (PyExc "OSError" "[Errno 8] Exec format error") eq_refl eq_refl).
  reflexivity.
Defined.

(** C5: whatever happens when the artifact is written, [run_contam]
    returns the same value; a failed write is logged as an error. *)
Theorem artifact_fault_keeps_result (w : World) (g : string -> option py_exc)
    (sim_file : string) (tr : list event) :
  fst (run_contam (with_write_fault w g) sim_file tr) = fst (run_contam w sim_file tr) /\
  (forall r e,
     fs_exists w sim_file = true ->
     subprocess_outcome w [CONTAM_EXE w; sim_file] = inr r ->
     g (output_log_file (OsPath.basename sim_file)) = Some e ->
     In (Log ERROR ("Error writing log file for " ++ OsPath.basename sim_file ++ ": " ++ exc_msg e))
        (snd (run_contam (with_write_fault w g) sim_file tr))).
Proof.
  split.
  - rewrite !run_contam_eq. same_world_reads.
    destruct (fs_exists w sim_file); [| reflexivity].
    destruct (subprocess_outcome w [CONTAM_EXE w; sim_file]); reflexivity.
  - intros r e Hpresent Hran Hg.
    rewrite run_contam_eq. same_world_reads. rewrite Hpresent, Hran.
    simpl snd. unfold artifact_events. simpl write_fault. rewrite Hg.
    apply in_or_app; right; left; reflexivity.
Qed.

Lemma artifact_fault_keeps_result_witness :
  fst (run_contam (with_write_fault w_all_ok (write_fault w_disk_full)) "simulations/sim1.prj" []) =
  fst (run_contam w_all_ok "simulations/sim1.prj" []) /\
  In (Log ERROR "Error writing log file for sim1.prj: [Errno 28] No space left on device")
     (snd (run_contam (with_write_fault w_all_ok (write_fault w_disk_full)) "simulations/sim1.prj" [])).
Proof.
  destruct (artifact_fault_keeps_result w_all_ok (write_fault w_disk_full) "simulations/sim1.prj" [])
    as [H1 H2].
  split; [exact H1 |].
  exact (H2 (CompletedProcess ["/opt/contam/contamx3.exe"; "simulations/sim1.prj"] 0 "OK" "")
            (PyExc "OSError" "[Errno 28] No space left on device") eq_refl eq_refl eq_refl).
Defined.

(** C6: a missing executable ends the run with exit code 1 before any job
    is attempted; otherwise (once the output directory is there or could
    be made) every run ends with exit code 0, whatever the jobs gave. *)
Theorem startup_exit_codes (w : World) :
  (fs_exists w (CONTAM_EXE w) = false ->
     script_runs w 1 [] [] /\
     forall code results attempted,
       script_runs w code results attempted -> code = 1%Z /\ attempted = []) /\
  (fs_exists w (CONTAM_EXE w) = true ->
     (fs_exists w "output" = true \/ makedirs_fault w "output" = None) ->
     (exists results attempted, script_runs w 0 results attempted) /\
     forall code results attempted, script_runs w code results attempted -> code = 0%Z).
Proof.
  split.
  - intros Hexe. split; [apply run_no_exe; exact Hexe |].
    intros code results attempted Hrun.
    destruct (script_no_exe w code results attempted Hexe Hrun) as (Hc & _ & Ha). auto.
  - intros Hexe Hout. split; [apply script_pool_runs; assumption |].
    intros code results attempted Hrun.
    apply (script_exit_zero w code results attempted Hexe Hout Hrun).
Qed.

Lemma startup_exit_codes_witness :
  script_runs w_no_exe 1 [] [] /\
  exists results attempted, script_runs w_sim3_missing 0 results attempted.
Proof.
  split.
  - exact (proj1 (proj1 (startup_exit_codes w_no_exe) eq_refl)).
  - exact (proj1 (proj2 (startup_exit_codes w_sim3_missing) eq_refl (or_introl eq_refl))).
Defined.

(** C7, as worded: refuted.  An executable that exists but cannot be
    executed passes the startup check: all three jobs are attempted and the
    run exits with code 0. *)
Lemma exe_check_claim_counterexample : ~ exe_check_claim.
Proof.
  intros H.
  destruct (script_pool_runs w_not_executable eq_refl (or_introl eq_refl)) as (rs & a & Hrun).
  destruct (H w_not_executable (or_intror eq_refl) 0%Z rs a Hrun) as [Hc _].
  discriminate Hc.
Qed.

(** C7, amended: the startup check is [os.path.exists] only.  A missing
    executable ends the run with exit code 1 and no job attempted; an
    existing one lets all jobs run (exit code 0), and when it is not
    executable each job whose input exists reports "Exception occurred". *)
Theorem exe_check_is_existence_only (w : World) :
  (fs_exists w (CONTAM_EXE w) = false ->
     forall code results attempted,
       script_runs w code results attempted -> code = 1%Z /\ attempted = []) /\
  (fs_exists w (CONTAM_EXE w) = true ->
     (fs_exists w "output" = true \/ makedirs_fault w "output" = None) ->
     forall code results attempted,
       script_runs w code results attempted ->
       code = 0%Z /\ Permutation attempted (seq 0 3) /\
       (fs_executable w (CONTAM_EXE w) = false ->
          results = map (fun f => if fs_exists w f
                                  then OsPath.basename f ++ ": Exception occurred"
                                  else OsPath.basename f ++ ": File not found")
                        SIMULATION_FILES)).
Proof.
  split.
  - intros Hexe code results attempted Hrun.
    destruct (script_no_exe w code results attempted Hexe Hrun) as (Hc & _ & Ha). auto.
  - intros Hexe Hout code results attempted Hrun.
    destruct (script_exit_zero w code results attempted Hexe Hout Hrun) as (Hc & Hr & Hp).
    split; [exact Hc | split; [exact Hp |]].
    intros Hnx.
    rewrite (first_exc_all_values w (fun f => if fs_exists w f
                                              then OsPath.basename f ++ ": Exception occurred"
                                              else OsPath.basename f ++ ": File not found"))
      in Hr; [congruence |].
    intros f _. unfold job_outcome. rewrite run_contam_eq.
    destruct (fs_exists w f) eqn:Hf; [| reflexivity].
    unfold subprocess_outcome. rewrite Hexe, Hnx. reflexivity.
Qed.

Lemma exe_check_is_existence_only_witness :
  exists code results attempted,
    script_runs w_not_executable code results attempted /\
    code = 0%Z /\ Permutation attempted (seq 0 3) /\
    results = ["sim1.prj: Exception occurred"; "sim2.prj: Exception occurred";
               "sim3.prj: Exception occurred"].
Proof.
  destruct (script_pool_runs w_not_executable eq_refl (or_introl eq_refl)) as (rs & a & Hrun).
  destruct (proj2 (exe_check_is_existence_only w_not_executable) eq_refl
              (or_introl eq_refl) 0%Z rs a Hrun) as (Hc & Hp & Hr).
  exists 0%Z, rs, a. split; [exact Hrun | split; [exact Hc | split; [exact Hp | exact (Hr eq_refl)]]].
Defined.

(** C8, as worded: refuted.  A job file without the ".prj" extension keeps
    its name: "simulations/model.txt" is logged to "output/model.txt", not
    "output/model.log". *)
Lemma artifact_path_claim_counterexample : ~ artifact_path_claim.
Proof.
  intros H.
  assert (Hw : In (WriteFile "output/model.txt"
                     (log_details ["/opt/contam/contamx3.exe"; "simulations/model.txt"] 1207
                        (CompletedProcess ["/opt/contam/contamx3.exe"; "simulations/model.txt"]
                           0 "OK" "")))
                  (snd (run_contam w_all_ok "simulations/model.txt" []))).
  { vm_compute. right; right; right; right; left; reflexivity. }
  pose proof (H w_all_ok "simulations/model.txt" _ _ Hw) as Hp.
  vm_compute in Hp. discriminate Hp.
Qed.

(** C8, amended: the artifact is written to
    [os.path.join("output", name.replace(".prj", ".log"))]; for a name
    made of a stem without ".prj" followed by ".prj" (as every entry of
    SIMULATION_FILES), that is "output/<stem>.log". *)
Theorem artifact_path_replaces_prj (w : World) (sim_file p c : string)
    (Hw : In (WriteFile p c) (snd (run_contam w sim_file []))) :
  p = OsPath.join "output" (PyStr.replace (OsPath.basename sim_file) ".prj" ".log") /\
  (forall stem, OsPath.basename sim_file = stem ++ ".prj" ->
     String.index 0 ".prj" stem = None ->
     p = OsPath.join "output" (stem ++ ".log")).
Proof.
  assert (Hp : p = output_log_file (OsPath.basename sim_file)).
  { rewrite run_contam_eq in Hw.
    destruct (fs_exists w sim_file);
      [| simpl in Hw; destruct Hw as [Hw | [Hw | []]]; discriminate Hw].
    destruct (subprocess_outcome w [CONTAM_EXE w; sim_file]) as [e | r]; simpl in Hw.
    - destruct Hw as [Hw | [Hw | [Hw | [Hw | []]]]]; discriminate Hw.
    - destruct Hw as [Hw | [Hw | [Hw | [Hw | Hw]]]]; try discriminate Hw.
      + unfold artifact_events in Hw.
        destruct (write_fault w _); simpl in Hw.
        * destruct Hw as [Hw | []]; discriminate Hw.
        * destruct Hw as [Hw | [Hw | []]]; [inversion Hw; reflexivity | discriminate Hw]. }
  split; [exact Hp |].
  intros stem Hname Hidx. rewrite Hp. unfold output_log_file. rewrite Hname.
  f_equal. apply replace_go_prj. exact Hidx.
Qed.

Lemma artifact_path_replaces_prj_witness :
  In (WriteFile "output/sim1.log"
        (log_details ["/opt/contam/contamx3.exe"; "simulations/sim1.prj"] 1207
           (CompletedProcess ["/opt/contam/contamx3.exe"; "simulations/sim1.prj"] 0 "OK" "")))
     (snd (run_contam w_all_ok "simulations/sim1.prj" [])) /\
  "output/sim1.log" = OsPath.join "output" ("sim1" ++ ".log").
Proof.
  assert (Hw : In (WriteFile "output/sim1.log"
        (log_details ["/opt/contam/contamx3.exe"; "simulations/sim1.prj"] 1207
           (CompletedProcess ["/opt/contam/contamx3.exe"; "simulations/sim1.prj"] 0 "OK" "")))
     (snd (run_contam w_all_ok "simulations/sim1.prj" []))).
  { vm_compute. right; right; right; right; left; reflexivity. }
  split; [exact Hw |].
  exact (proj2 (artifact_path_replaces_prj w_all_ok "simulations/sim1.prj" _ _ Hw)
           "sim1" eq_refl eq_refl).
Defined.

(** C9: a written artifact holds, in this order, the command line, the
    elapsed time, the return code, the child's stdout and its stderr, each
    after its label; for stdout "OK" and return code 0 it contains "OK"
    and "Return Code: 0". *)
Theorem artifact_sections (w : World) (sim_file p c : string)
    (Hw : In (WriteFile p c) (snd (run_contam w sim_file []))) :
  exists r,
    subprocess_outcome w [CONTAM_EXE w; sim_file] = inr r /\
    c = "Command: " ++ PyStr.join " " [CONTAM_EXE w; sim_file] ++ PyStr.nl
        ++ "Elapsed Time: " ++ PyStr.fmt_2f (duration w [CONTAM_EXE w; sim_file])
        ++ " seconds" ++ PyStr.nl
        ++ "Return Code: " ++ PyStr.str_int (returncode r) ++ PyStr.nl
        ++ "STDOUT:" ++ PyStr.nl ++ stdout r ++ PyStr.nl
        ++ "STDERR:" ++ PyStr.nl ++ stderr r ++ PyStr.nl /\
    (stdout r = "OK" -> returncode r = 0%Z ->
       py_in "OK" c = true /\ py_in "Return Code: 0" c = true).
Proof.
  rewrite run_contam_eq in Hw.
  destruct (fs_exists w sim_file);
    [| simpl in Hw; destruct Hw as [Hw | [Hw | []]]; discriminate Hw].
  destruct (subprocess_outcome w [CONTAM_EXE w; sim_file]) as [e | r]; simpl in Hw.
  - destruct Hw as [Hw | [Hw | [Hw | [Hw | []]]]]; discriminate Hw.
  - destruct Hw as [Hw | [Hw | [Hw | [Hw | Hw]]]]; try discriminate Hw.
    unfold artifact_events in Hw.
    destruct (write_fault w _); simpl in Hw;
      [destruct Hw as [Hw | []]; discriminate Hw |].
    destruct Hw as [Hw | [Hw | []]]; [| discriminate Hw].
    injection Hw as Hp Hc.
    assert (Hcontents :
      c = "Command: " ++ PyStr.join " " [CONTAM_EXE w; sim_file] ++ PyStr.nl
          ++ "Elapsed Time: " ++ PyStr.fmt_2f (duration w [CONTAM_EXE w; sim_file])
          ++ " seconds" ++ PyStr.nl
          ++ "Return Code: " ++ PyStr.str_int (returncode r) ++ PyStr.nl
          ++ "STDOUT:" ++ PyStr.nl ++ stdout r ++ PyStr.nl
          ++ "STDERR:" ++ PyStr.nl ++ stderr r ++ PyStr.nl)
      by (rewrite <- Hc; reflexivity).
    exists r. split; [reflexivity | split; [exact Hcontents |]].
    intros Hout Hrc. split.
    + apply (py_in_intro
               ("Command: " ++ PyStr.join " " [CONTAM_EXE w; sim_file] ++ PyStr.nl
                ++ "Elapsed Time: " ++ PyStr.fmt_2f (duration w [CONTAM_EXE w; sim_file])
                ++ " seconds" ++ PyStr.nl
                ++ "Return Code: " ++ PyStr.str_int (returncode r) ++ PyStr.nl
                ++ "STDOUT:" ++ PyStr.nl)
               "OK"
               (PyStr.nl ++ "STDERR:" ++ PyStr.nl ++ stderr r ++ PyStr.nl)).
      rewrite Hcontents, Hout, !str_app_assoc. reflexivity.
    + apply (py_in_intro
               ("Command: " ++ PyStr.join " " [CONTAM_EXE w; sim_file] ++ PyStr.nl
                ++ "Elapsed Time: " ++ PyStr.fmt_2f (duration w [CONTAM_EXE w; sim_file])
                ++ " seconds" ++ PyStr.nl)
               "Return Code: 0"
               (PyStr.nl ++ "STDOUT:" ++ PyStr.nl ++ stdout r ++ PyStr.nl
                ++ "STDERR:" ++ PyStr.nl ++ stderr r ++ PyStr.nl)).
      rewrite Hcontents, Hrc, !str_app_assoc. reflexivity.
Qed.

Lemma artifact_sections_witness :
  py_in "OK" (log_details ["/opt/contam/contamx3.exe"; "simulations/sim1.prj"] 1207
                (CompletedProcess ["/opt/contam/contamx3.exe"; "simulations/sim1.prj"] 0 "OK" ""))
    = true /\
  py_in "Return Code: 0" (log_details ["/opt/contam/contamx3.exe"; "simulations/sim1.prj"] 1207
                (CompletedProcess ["/opt/contam/contamx3.exe"; "simulations/sim1.prj"] 0 "OK" ""))
    = true.
Proof.
  assert (Hw : In (WriteFile "output/sim1.log"
        (log_details ["/opt/contam/contamx3.exe"; "simulations/sim1.prj"] 1207
           (CompletedProcess ["/opt/contam/contamx3.exe"; "simulations/sim1.prj"] 0 "OK" "")))
     (snd (run_contam w_all_ok "simulations/sim1.prj" []))).
  { vm_compute. right; right; right; right; left; reflexivity. }
  destruct (artifact_sections w_all_ok "simulations/sim1.prj" _ _ Hw) as (r & Hr & _ & Hin).
  vm_compute in Hr. inversion Hr; subst r.
  exact (Hin eq_refl eq_refl).
Defined.

(** C10: [run_contam] always returns a summary string and never raises;
    hence [list(executor.map(run_contam, jobs))] never re-raises. *)
Theorem run_contam_never_raises (w : World) (sim_file : string) (tr : list event) :
  (exists v tr', run_contam w sim_file tr = (inr v, tr')) /\
  (forall jobs, exists results, first_exc (map (job_outcome w) jobs) = inr results).
Proof.
  split; [apply run_contam_returns | intros jobs; apply first_exc_job_outcomes].
Qed.

End Claims.

(* ========================================================================= *)
(** * Further properties of the script *)

Module Extras.
Import Script Pool PoolFacts Main MainProc TraceView RunContamFacts ScriptFacts SpecSide.

(** The four ways a call of [run_contam] can go. *)
Ltac run_cases w f :=
  rewrite ?run_contam_eq;
  destruct (fs_exists w f) eqn:?;
  [ destruct (subprocess_outcome w [CONTAM_EXE w; f]) eqn:?;
    [| unfold artifact_events;
       destruct (write_fault w (output_log_file (OsPath.basename f))) eqn:? ] |];
  simpl.

(** [run_contam] starts at most one process, and the only command line it
    ever runs is the executable followed by the job's input path. *)
Theorem run_contam_single_launch (w : World) (sim_file : string) :
  count_events is_popen (snd (run_contam w sim_file [])) <= 1 /\
  (forall cmd, In (Popen cmd) (snd (run_contam w sim_file [])) -> cmd = [CONTAM_EXE w; sim_file]).
Proof.
  run_cases w sim_file; unfold count_events; simpl; split; try lia;
    intros cmd Hin; repeat destruct Hin as [Hin | Hin]; try discriminate Hin;
    try (inversion Hin; reflexivity); contradiction.
Qed.

(** [run_contam] writes at most one file; a written file is the job's
    artifact path, and it is written only after the process was started. *)
Theorem run_contam_write_after_launch (w : World) (sim_file : string) :
  count_events is_write (snd (run_contam w sim_file [])) <= 1 /\
  (forall p c, In (WriteFile p c) (snd (run_contam w sim_file [])) ->
     p = output_log_file (OsPath.basename sim_file) /\
     exists pre post, snd (run_contam w sim_file []) = app pre (WriteFile p c :: post) /\
                      In (Popen [CONTAM_EXE w; sim_file]) pre).
Proof.
  run_cases w sim_file; unfold count_events; simpl; split; try lia;
    intros path contents Hin; repeat destruct Hin as [Hin | Hin]; try discriminate Hin;
    try contradiction.
  injection Hin as <- <-. split; [reflexivity |].
  eexists [_; _; _; _], _. split; [reflexivity |]. simpl; auto.
Qed.

(** Every summary line starts with the job's file name and ": ". *)
Theorem run_contam_summary_names_job (w : World) (sim_file : string) (tr : list event) :
  exists v rest, fst (run_contam w sim_file tr) = inr v /\
                 v = OsPath.basename sim_file ++ ": " ++ rest.
Proof. run_cases w sim_file; do 2 eexists; split; reflexivity. Qed.

(** A job logs at most one error, and it logs one exactly when its input
    is missing, the launch raised, or the artifact could not be written. *)
Theorem run_contam_error_lines (w : World) (sim_file : string) :
  count_events is_error (snd (run_contam w sim_file [])) <= 1 /\
  (count_events is_error (snd (run_contam w sim_file [])) = 1 <->
   fs_exists w sim_file = false \/
   (fs_exists w sim_file = true /\ exists e, subprocess_outcome w [CONTAM_EXE w; sim_file] = inl e) \/
   (fs_exists w sim_file = true /\
    exists r e, subprocess_outcome w [CONTAM_EXE w; sim_file] = inr r /\
                write_fault w (output_log_file (OsPath.basename sim_file)) = Some e)).
Proof.
  run_cases w sim_file; unfold count_events; simpl; (split; [lia |]); split; intros H;
    try reflexivity; try discriminate H; eauto 8;
    repeat match goal with
           | H : _ \/ _ |- _ => destruct H
           | H : _ /\ _ |- _ => destruct H
           | H : exists _, _ |- _ => destruct H
           end; congruence.
Qed.

(** For a completed job whose artifact was written, the summary line, the
    "Finished" log line and the artifact report the same elapsed time and
    the same return code. *)
Theorem run_contam_outputs_agree (w : World) (sim_file p c v : string)
    (Hv : fst (run_contam w sim_file []) = inr v)
    (Hw : In (WriteFile p c) (snd (run_contam w sim_file []))) :
  exists t rc,
    v = OsPath.basename sim_file ++ ": Completed in " ++ t ++ " seconds, Return Code: " ++ rc /\
    In (Log INFO ("Finished simulation for " ++ OsPath.basename sim_file ++ " in " ++ t
                  ++ " seconds")) (snd (run_contam w sim_file [])) /\
    py_in ("Elapsed Time: " ++ t ++ " seconds" ++ PyStr.nl ++ "Return Code: " ++ rc) c = true.
Proof.
  revert Hv Hw. run_cases w sim_file; intros Hv Hw;
    repeat destruct Hw as [Hw | Hw]; try discriminate Hw; try contradiction.
  injection Hv as <-. injection Hw as <- <-.
  do 2 eexists. split; [reflexivity | split; [right; right; right; left; reflexivity |]].
  match goal with |- py_in _ (log_details ?cmd ?t ?r) = true =>
    apply (py_in_intro ("Command: " ++ PyStr.join " " cmd ++ PyStr.nl) _
             (PyStr.nl ++ "STDOUT:" ++ PyStr.nl ++ stdout r ++ PyStr.nl
              ++ "STDERR:" ++ PyStr.nl ++ stderr r ++ PyStr.nl))
  end.
  unfold log_details.
  repeat progress (cbn [String.append]; rewrite ?str_app_assoc).
  reflexivity.
Qed.

Lemma run_contam_outputs_agree_witness :
  exists t rc,
    "sim1.prj: Completed in 12.07 seconds, Return Code: 0" =
      "sim1.prj: Completed in " ++ t ++ " seconds, Return Code: " ++ rc /\
    In (Log INFO ("Finished simulation for sim1.prj in " ++ t ++ " seconds"))
       (snd (run_contam w_all_ok "simulations/sim1.prj" [])) /\
    py_in ("Elapsed Time: " ++ t ++ " seconds" ++ PyStr.nl ++ "Return Code: " ++ rc)
      (log_details ["/opt/contam/contamx3.exe"; "simulations/sim1.prj"] 1207
         (CompletedProcess ["/opt/contam/contamx3.exe"; "simulations/sim1.prj"] 0 "OK" "")) = true.
Proof.
  apply (run_contam_outputs_agree w_all_ok "simulations/sim1.prj" "output/sim1.log").
  - reflexivity.
  - vm_compute. right; right; right; right; left; reflexivity.
Defined.

Lemma log_all_eq (lvl : level) (msgs : list string) (tr : list event) :
  log_all lvl msgs tr = (inr tt, app tr (map (Log lvl) msgs)).
Proof.
  revert tr. induction msgs as [| m ms IH]; intros tr; simpl.
  - rewrite app_nil_r. reflexivity.
  - unfold bind, logging, emit. rewrite IH, <- app_assoc. reflexivity.
Qed.

Lemma summary_prefix (w : World) (sim_file : string) :
  exists rest, job_outcome w sim_file = inr (OsPath.basename sim_file ++ ": " ++ rest).
Proof. unfold job_outcome. run_cases w sim_file; eexists; reflexivity. Qed.

Lemma forall2_map_self {A C : Type} (R : A -> C -> Prop) (g : A -> C) (l : list A) :
  (forall a, In a l -> R a (g a)) -> Forall2 R l (map g l).
Proof.
  induction l as [| a l IH]; intros H; simpl; constructor.
  - apply H; left; reflexivity.
  - apply IH. intros a' Ha'. apply H; right; exact Ha'.
Qed.

(** After every job has finished, [main()] returns normally and its log
    ends with the summary header followed by exactly one line per job, in
    job-list order: that job's summary, which starts with its file name. *)
Theorem main_summary_in_job_order (w : World) (jobs : list string) (P : nat)
    (s : pool_state) (outs : list (py_exc + string))
    (Hs : pool_star (job_outcome w) jobs P pool_init s)
    (Hf : pool_final jobs s)
    (Hc : collect jobs s = Some outs)
    (Hout : fs_exists w "output" = true \/ makedirs_fault w "output" = None) :
  exists pre results,
    main w outs [] =
      (inr tt, app pre (Log INFO "All simulations completed. Summary:" :: map (Log INFO) results)) /\
    Forall2 (fun f r => job_outcome w f = inr r /\
                        exists rest, r = OsPath.basename f ++ ": " ++ rest) jobs results.
Proof.
  destruct (pool_final_correct (job_outcome w) jobs P s Hs Hf) as [Hc' _].
  rewrite Hc in Hc'. injection Hc' as ->.
  set (g := fun f => match job_outcome w f with inr v => v | inl _ => "" end).
  assert (Hg : forall f, job_outcome w f = inr (g f)).
  { intros f. unfold g. destruct (job_outcome_returns w f) as [v ->]. reflexivity. }
  assert (Hfe : first_exc (map (job_outcome w) jobs) = inr (map g jobs))
    by (apply first_exc_all_values; intros f _; apply Hg).
  unfold main, os_path_exists, os_makedirs, logging, emit, bind, ret, raise.
  rewrite Hfe.
  assert (Hlines : Forall2 (fun f r => job_outcome w f = inr r /\
                     exists rest, r = OsPath.basename f ++ ": " ++ rest) jobs (map g jobs)).
  { apply forall2_map_self. intros f _. split; [apply Hg |].
    destruct (summary_prefix w f) as [rest Hr]. rewrite Hg in Hr. injection Hr as Hr.
    eexists; exact Hr. }
  destruct (fs_exists w "output") eqn:Hex; simpl.
  - rewrite log_all_eq. exists [Log INFO "Starting all simulations in parallel."], (map g jobs).
    split; [reflexivity | exact Hlines].
  - destruct Hout as [Hout | Hout]; [discriminate Hout | rewrite Hout]. simpl.
    rewrite log_all_eq.
    exists [MakeDirs "output"; Log DEBUG "Created 'output' directory.";
            Log INFO "Starting all simulations in parallel."], (map g jobs).
    split; [reflexivity | exact Hlines].
Qed.

Lemma main_summary_in_job_order_witness :
  exists s outs,
    pool_star (job_outcome w_all_ok) SIMULATION_FILES 3 pool_init s /\
    pool_final SIMULATION_FILES s /\ collect SIMULATION_FILES s = Some outs /\
    exists pre results,
      main w_all_ok outs [] =
        (inr tt, app pre (Log INFO "All simulations completed. Summary:" :: map (Log INFO) results)) /\
      Forall2 (fun f r => job_outcome w_all_ok f = inr r /\
                          exists rest, r = OsPath.basename f ++ ": " ++ rest) SIMULATION_FILES results.
Proof.
  destruct (pool_completes (job_outcome w_all_ok) SIMULATION_FILES 3 ltac:(lia)) as (s & Hs & Hf).
  destruct (pool_final_correct (job_outcome w_all_ok) SIMULATION_FILES 3 s Hs Hf) as [Hc _].
  exists s, (map (job_outcome w_all_ok) SIMULATION_FILES).
  split; [exact Hs | split; [exact Hf | split; [exact Hc |]]].
  exact (main_summary_in_job_order w_all_ok SIMULATION_FILES 3 s _ Hs Hf Hc (or_introl eq_refl)).
Defined.

(** [main()] creates the output directory only when it is missing, before
    any simulation is started; when creating it fails, the error
    propagates and nothing else happens. *)
Theorem main_output_dir (w : World) (outs : list (py_exc + string)) :
  (forall e, fs_exists w "output" = false -> makedirs_fault w "output" = Some e ->
     main w outs [] = (inl e, [])) /\
  (fs_exists w "output" = false -> makedirs_fault w "output" = None ->
     exists rest, snd (main w outs []) =
       MakeDirs "output" :: Log DEBUG "Created 'output' directory."
       :: Log INFO "Starting all simulations in parallel." :: rest) /\
  (fs_exists w "output" = true -> forall p, ~ In (MakeDirs p) (snd (main w outs []))).
Proof.
  unfold main, os_path_exists, os_makedirs, logging, emit, bind, ret, raise.
  split; [| split].
  - intros e Hex Hm. rewrite Hex, Hm. reflexivity.
  - intros Hex Hm. rewrite Hex, Hm. simpl.
    destruct (first_exc outs) as [e | rs]; simpl; [eexists; reflexivity |].
    rewrite log_all_eq. eexists; reflexivity.
  - intros Hex p. rewrite Hex. simpl.
    destruct (first_exc outs) as [e | rs]; simpl.
    + intros [H | []]; discriminate H.
    + rewrite log_all_eq. simpl. intros [H | [H | H]]; try discriminate H.
      apply in_map_iff in H. destruct H as (m & Hm & _). discriminate Hm.
Qed.



Lemma main_output_dir_witness :
  main w_output_blocked [inr "sim1.prj: File not found"] [] =
    (inl (PyExc "FileExistsError" "[Errno 17] File exists: 'output'"), []) /\
  forall p, ~ In (MakeDirs p) (snd (main w_all_ok [] [])).
Proof.
  split.
  - exact (proj1 (main_output_dir w_output_blocked [inr "sim1.prj: File not found"]) _
             eq_refl eq_refl).
  - exact (proj2 (proj2 (main_output_dir w_all_ok [])) eq_refl).
Defined.

Lemma dispatch_prefix {B : Type} (f : string -> B) (jobs : list string) (P k : nat) :
  k <= P -> k <= length jobs ->
  pool_star f jobs P pool_init (PoolState k (seq 0 k) []).
Proof.
  induction k as [| k IH]; intros HP HN; [constructor |].
  eapply star_snoc; [apply IH; lia |].
  rewrite seq_S. simpl. apply step_dispatch; [lia | rewrite length_seq; lia].
Qed.

(** With [max_workers = P], at most [min P N] simulations ever run at the
    same time, and some schedule does reach [min P N] at once. *)
Theorem pool_concurrency {B : Type} (f : string -> B) (jobs : list string) (P : nat) :
  (forall s, pool_star f jobs P pool_init s -> length (running s) <= Nat.min P (length jobs)) /\
  (exists s, pool_star f jobs P pool_init s /\ length (running s) = Nat.min P (length jobs)).
Proof.
  split.
  - intros s Hs. destruct (inv_star f jobs P s Hs) as (Hn & Hr & Hnd & Hin & _).
    assert (length (running s) <= length jobs).
    { rewrite <- (length_seq (length jobs) 0).
      apply NoDup_incl_length.
      - apply NoDup_app_remove_r in Hnd. exact Hnd.
      - intros i Hi. apply in_seq.
        assert (i < next_job s) by (apply Hin; apply in_or_app; left; exact Hi). lia. }
    lia.
  - exists (PoolState (Nat.min P (length jobs)) (seq 0 (Nat.min P (length jobs))) []).
    split; [apply dispatch_prefix; lia | simpl; apply length_seq].
Qed.

(** Jobs start in list order: whenever a job has been started (it runs or
    has finished), every job before it in the list has been started too. *)
Theorem pool_starts_in_order {B : Type} (f : string -> B) (jobs : list string) (P : nat)
    (s : pool_state) (i j : nat)
    (Hs : pool_star f jobs P pool_init s)
    (Hij : i < j)
    (Hj : In j (running s ++ map fst (finished s))) :
  In i (running s ++ map fst (finished s)).
Proof.
  destruct (inv_star f jobs P s Hs) as (_ & _ & _ & Hin & _).
  apply Hin. apply Hin in Hj. lia.
Qed.

Lemma pool_starts_in_order_witness :
  In 0 (running (@PoolState (py_exc + string) 2 [0; 1] []) ++
        map fst (finished (@PoolState (py_exc + string) 2 [0; 1] []))).
Proof.
  apply (pool_starts_in_order (job_outcome w_all_ok) SIMULATION_FILES 3 _ 0 1).
  - apply dispatch_prefix; simpl; lia.
  - lia.
  - simpl; auto.
Defined.

Lemma str_length_app (a b : string) : String.length (a ++ b) = String.length a + String.length b.
Proof. induction a as [| x a IH]; simpl; [reflexivity | rewrite IH; reflexivity]. Qed.

Lemma str_app_cancel_r (a b c : string) : a ++ c = b ++ c -> a = b.
Proof.
  revert b. induction a as [| x a IH]; intros b H; destruct b as [| y b]; simpl in H.
  - reflexivity.
  - apply (f_equal String.length) in H. simpl in H. rewrite str_length_app in H. lia.
  - apply (f_equal String.length) in H. simpl in H. rewrite str_length_app in H. lia.
  - injection H as -> H. f_equal. apply IH. exact H.
Qed.

Lemma join_output_inj (x y : string) : OsPath.join "output" x = OsPath.join "output" y -> x = y.
Proof.
  unfold OsPath.join. simpl String.eqb.
  destruct (PyStr.starts_with_char "/" x) eqn:Hx, (PyStr.starts_with_char "/" y) eqn:Hy; simpl;
    intros H; try exact H.
  - subst x. discriminate Hx.
  - subst y. discriminate Hy.
  - repeat (injection H as H); exact H.
Qed.

Lemma prefix_prj_boundary_log (c : ascii) (t : string) :
  prefix ".prj" (String c t) = false -> prefix ".prj" (String c (t ++ ".log")) = false.
Proof.
  change (String c (t ++ ".log")) with (String c t ++ ".log").
  destruct t as [| c2 [| c3 [| c4 t]]]; intros H;
    [| | | rewrite prefix_app_long; [exact H | simpl; lia]];
    cbn [prefix String.append]; repeat match goal with
                  | |- context [ascii_dec ?a ?b] => destruct (ascii_dec a b)
                  end; try reflexivity;
    match goal with H : ?a = ?b |- _ => discriminate H end.
Qed.

Lemma replace_go_log (stem : string) :
  String.index 0 ".prj" stem = None ->
  PyStr.replace_go ".prj" ".log" 0 (stem ++ ".log") = stem ++ ".log".
Proof.
  induction stem as [| c stem IH]; [reflexivity |].
  intros Hidx. cbn [String.index] in Hidx.
  destruct (prefix ".prj" (String c stem)) eqn:Hp; [discriminate |].
  destruct (String.index 0 ".prj" stem) eqn:Hs; [discriminate |].
  change (String c stem ++ ".log") with (String c (stem ++ ".log")).
  cbn [PyStr.replace_go].
  rewrite (prefix_prj_boundary_log c stem Hp). rewrite (IH eq_refl). reflexivity.
Qed.

(** Two jobs whose names differ only in a ".prj" or ".log" extension write
    the same artifact file, so one overwrites the other. *)
Theorem artifact_path_collision (stem : string) (Hstem : String.index 0 ".prj" stem = None) :
  output_log_file (stem ++ ".log") = output_log_file (stem ++ ".prj").
Proof.
  unfold output_log_file, PyStr.replace.
  rewrite replace_go_log, replace_go_prj by exact Hstem. reflexivity.
Qed.

Lemma artifact_path_collision_witness :
  output_log_file "sim1.log" = output_log_file "sim1.prj".
Proof. exact (artifact_path_collision "sim1" eq_refl). Defined.

(** Distinct ".prj" jobs (stems without ".prj") get distinct artifact files. *)
Theorem artifact_path_injective_prj (stem1 stem2 : string)
    (H1 : String.index 0 ".prj" stem1 = None)
    (H2 : String.index 0 ".prj" stem2 = None)
    (Heq : output_log_file (stem1 ++ ".prj") = output_log_file (stem2 ++ ".prj")) :
  stem1 = stem2.
Proof.
  unfold output_log_file, PyStr.replace in Heq.
  rewrite (replace_go_prj stem1 H1), (replace_go_prj stem2 H2) in Heq.
  apply join_output_inj in Heq. apply str_app_cancel_r in Heq. exact Heq.
Qed.

Lemma artifact_path_injective_prj_witness :
  output_log_file ("sim1" ++ ".prj") <> output_log_file ("sim2" ++ ".prj").
Proof.
  intros H. pose proof (artifact_path_injective_prj "sim1" "sim2" eq_refl eq_refl H) as E.
  discriminate E.
Defined.

End Extras.
